(** * bdi_api.s4.exercise: the S3 downloader and localizer endpoints

    A shallow embedding of [src/bdi_api/s4/exercise.py].  Pure helpers are
    Rocq functions; the two request handlers are computations in a small
    state-and-exception monad over an explicit [World] (remote archive,
    object storage, local file system and a chronological trace of the
    external calls made so far). *)

From stdpp Require Import gmap strings list fin_maps sorting.
From Stdlib Require Import ZArith DecimalString Ascii.
From Equations Require Import Equations.

Local Open Scope Z_scope.

(** ** Python primitives used by the module *)

Module Py.

(** [str(z)] for an [int]. *)
Definition str_int (z : Z) : string := NilZero.string_of_int (Z.to_int z).

Fixpoint zeros (n : nat) : string :=
  match n with
  | O => ""
  | S n' => String "0"%char (zeros n')
  end.

(** [format(z, "02d")]: decimal digits, zero-padded after the sign up to a
    total width of two characters. *)
Definition format_02d (z : Z) : string :=
  if z <? 0 then
    let digits := str_int (- z) in
    "-" +:+ zeros (1 - String.length digits) +:+ digits
  else
    let digits := str_int z in
    zeros (2 - String.length digits) +:+ digits.

(** [len(range(start, stop, step))] for a positive [step]. *)
Definition range_length (start stop step : Z) : nat :=
  if start <? stop then Z.to_nat ((stop - start - 1) / step + 1) else O.

Fixpoint range_from (count : nat) (start step : Z) : list Z :=
  match count with
  | O => []
  | S count' => start :: range_from count' (start + step) step
  end.

(** [range(start, stop, step)] for a positive [step], as the list of the
    values it yields. *)
Definition range (start stop step : Z) : list Z :=
  range_from (range_length start stop step) start step.

(** [s.endswith(suffix)] *)
Definition endswith (s suffix : string) : bool :=
  String.prefix (String.rev suffix) (String.rev s).

(** [s[n:]] for [0 <= n]. *)
Fixpoint slice_from (n : nat) (s : string) : string :=
  match n, s with
  | O, _ => s
  | S n', String _ s' => slice_from n' s'
  | S _, EmptyString => EmptyString
  end.

End Py.

(** ** Module constants *)

Definition DAY : string := "20231101".
Definition REMOTE_DATE_PATH : string := "2023/11/01".
Definition S3_PREFIX : string := "raw/day=" +:+ DAY +:+ "/".

(** ** The filename generator *)

(** Body of the [for sec in range(...)] loop: the token appended for [sec]. *)
Definition readsb_filename (sec : Z) : string :=
  let hh := sec / 3600 in
  let mm := (sec mod 3600) / 60 in
  let ss := sec mod 60 in
  Py.format_02d hh +:+ Py.format_02d mm +:+ Py.format_02d ss +:+ "Z.json.gz".

(** The loop itself, threading the list [out] that the source appends to. *)
Fixpoint generate_loop (secs : list Z) (out : list string) : list string :=
  match secs with
  | [] => out
  | sec :: rest => generate_loop rest (out ++ [readsb_filename sec])
  end.

Definition _generate_readsb_filenames_every_5s : list string :=
  generate_loop (Py.range 0 (24 * 60 * 60) 5) [].

(** Reading a token back: the time of day, in seconds, that a token of the
    form [HHMMSSZ.json.gz] denotes.  Used only to state properties of the
    generator. *)
Definition digit_value (c : ascii) : option Z :=
  let n := Z.of_N (N_of_ascii c) in
  if (48 <=? n) && (n <=? 57) then Some (n - 48) else None.

Definition two_digits (a b : ascii) : option Z :=
  x ← digit_value a; y ← digit_value b; Some (10 * x + y).

Definition token_seconds (token : string) : option Z :=
  match token with
  | String h1 (String h2 (String m1 (String m2 (String s1 (String s2 rest))))) =>
      if String.eqb rest "Z.json.gz" then
        hh ← two_digits h1 h2;
        mm ← two_digits m1 m2;
        ss ← two_digits s1 s2;
        if (hh <? 24) && (mm <? 60) && (ss <? 60)
        then Some (3600 * hh + 60 * mm + ss) else None
      else None
  | _ => None
  end.

(** [a] denotes an earlier time of day than [b]. *)
Definition earlier (a b : string) : Prop :=
  match token_seconds a, token_seconds b with
  | Some ta, Some tb => ta < tb
  | _, _ => False
  end.

(** ** Paths ([pathlib.Path], POSIX flavour)

    A path is kept the way [pathlib] keeps it: whether it is anchored at the
    root, and its components.  Empty and ["."] components are dropped when a
    string is parsed; [".."] is kept: [pathlib] never cancels it, only the
    operating system interprets it, against the directories that exist. *)

Record Path : Type := mkPath { anchored : bool; parts : list string }.

Fixpoint split_slash (s : string) (cur : string) : list string :=
  match s with
  | EmptyString => [String.rev cur]
  | String c s' =>
      if Ascii.eqb c "/"%char then String.rev cur :: split_slash s' ""
      else split_slash s' (String c cur)
  end.

Definition kept_component (c : string) : bool :=
  negb (String.eqb c "") && negb (String.eqb c ".").

(** [Path(s)] *)
Definition Path_of (s : string) : Path :=
  {| anchored := String.prefix "/" s;
     parts := List.filter kept_component (split_slash s "") |}.

(** [p / s]: an anchored right operand replaces the left one. *)
Definition joinpath (p : Path) (s : string) : Path :=
  let q := Path_of s in
  if anchored q then q
  else {| anchored := anchored p; parts := parts p ++ parts q |}.

(** [p.parent] *)
Definition parent (p : Path) : Path :=
  {| anchored := anchored p; parts := removelast (parts p) |}.

(** Where path resolution starts: at the root for an anchored path, at the
    working directory of the process otherwise. *)
Definition start_of (cwd : list string) (p : Path) : list string :=
  if anchored p then [] else cwd.

(** Where one component leads from the location [loc]: [".."] to the
    enclosing directory (the root is its own), a name one level down. *)
Definition step (loc : list string) (c : string) : list string :=
  if String.eqb c ".." then removelast loc else loc ++ [c].


(** ** The world the handlers act on *)

Definition payload : Type := list Byte.byte.

Inductive entry : Type :=
| Dir
| File (data : payload).

(** One external call, as recorded in the trace. *)
Inductive Event : Type :=
| HttpHead (url : string)
| HttpGet (url : string)
| S3Upload (bucket key : string)
| S3List (bucket prefix : string)
| S3Download (bucket key : string) (dest : Path)
| FsExists (path : Path)
| FsRmtree (path : Path)
| FsMkdir (path : Path).

Record World : Type := mkWorld {
  (** the remote archive: the status code a HEAD of a URL is answered with,
      [None] when the request itself fails (time-out, connection error) *)
  archive_head : string → option Z;
  (** likewise for GET, with the body *)
  archive_get : string → option (Z * payload);
  (** object storage: bucket name to its objects, by key *)
  s3 : gmap string (gmap string payload);
  (** the local file system, by absolute location *)
  fs : gmap (list string) entry;
  (** the working directory of the process *)
  cwd : list string;
  (** every external call made so far, oldest first *)
  trace : list Event
}.

Definition with_trace (t : list Event) (w : World) : World :=
  mkWorld (archive_head w) (archive_get w) (s3 w) (fs w) (cwd w) t.
Definition with_s3 (s : gmap string (gmap string payload)) (w : World) : World :=
  mkWorld (archive_head w) (archive_get w) s (fs w) (cwd w) (trace w).
Definition with_fs (f : gmap (list string) entry) (w : World) : World :=
  mkWorld (archive_head w) (archive_get w) (s3 w) f (cwd w) (trace w).

Definition record_call (e : Event) (w : World) : World :=
  with_trace (trace w ++ [e]) w.

(** ** Exceptions and the handler monad *)

(** Error numbers of the system calls on paths. *)
Inductive errno : Type :=
| ENOENT
| ENOTDIR
| EEXIST
| EISDIR
| EINVAL.

Inductive exn : Type :=
| ValueError (msg : string)
| HTTPError (status_code : Z)
| RequestException (url : string)
| ClientError (code : string)
| OSError (code : errno) (path : Path).

Inductive outcome (A : Type) : Type :=
| Returns (a : A)
| Raises (e : exn).
Arguments Returns {A} a.
Arguments Raises {A} e.

Definition M (A : Type) : Type := World → outcome A * World.

#[export] Instance M_ret : MRet M := λ A a w, (Returns a, w).
#[export] Instance M_bind : MBind M := λ A B f m w,
  match m w with
  | (Returns a, w') => f a w'
  | (Raises e, w') => (Raises e, w')
  end.
#[export] Instance M_throw : MThrow exn M := λ A e w, (Raises e, w).

Fixpoint for_each {A : Type} (xs : list A) (body : A → M unit) : M unit :=
  match xs with
  | [] => mret tt
  | x :: rest => body x;; for_each rest body
  end.

(** ** The file system as system calls see it

    Locations are absolute and canonical; the root is [[]].  The kernel
    resolves a path one component at a time, and a component, [".."]
    included, is looked up in a directory that has to exist.  Symbolic
    links are not modelled. *)

Abbreviation FS := (gmap (list string) entry).

(** Looking the component [c] up from the location [loc]. *)
Definition enter (f : FS) (loc : list string) (c : string)
    : errno + list string :=
  match f !! loc with
  | Some Dir => inr (step loc c)
  | Some (File _) => inl ENOTDIR
  | None => inl ENOENT
  end.

(** Resolving a component list from [loc]: the location it names, which
    itself need not exist. *)
Fixpoint walk (f : FS) (loc : list string) (components : list string)
    : errno + list string :=
  match components with
  | [] => inr loc
  | c :: cs =>
      match enter f loc c with
      | inr loc' => walk f loc' cs
      | inl e => inl e
      end
  end.

Module os.

(** [os.stat(path)]: where the path leads and what is there. *)
Definition stat (f : FS) (cwd : list string) (path : Path)
    : errno + (list string * entry) :=
  match walk f (start_of cwd path) (parts path) with
  | inl e => inl e
  | inr loc =>
      match f !! loc with
      | Some e => inr (loc, e)
      | None => inl ENOENT
      end
  end.

(** [os.mkdir(path)]: creates the last component in the directory the
    others lead to. *)
Definition mkdir (f : FS) (cwd : list string) (path : Path) : errno + FS :=
  match last (parts path) with
  | None =>
      match f !! start_of cwd path with
      | Some _ => inl EEXIST
      | None => inl ENOENT
      end
  | Some c =>
      match walk f (start_of cwd path) (removelast (parts path)) with
      | inl e => inl e
      | inr loc =>
          match enter f loc c with
          | inl e => inl e
          | inr target =>
              if String.eqb c ".." then inl EEXIST
              else
                match f !! target with
                | Some _ => inl EEXIST
                | None => inr (<[target := Dir]> f)
                end
          end
      end
  end.

End os.

(** Writing [body] to the file the path names: the directory has to be
    there, and the name must not be that of a directory. *)
Definition write_file (f : FS) (cwd : list string) (dest : Path) (body : payload)
    : errno + FS :=
  match last (parts dest) with
  | None => inl EISDIR
  | Some c =>
      match walk f (start_of cwd dest) (removelast (parts dest)) with
      | inl e => inl e
      | inr loc =>
          match enter f loc c with
          | inl e => inl e
          | inr target =>
              if String.eqb c ".." then inl EISDIR
              else
                match f !! target with
                | Some Dir => inl EISDIR
                | _ => inr (<[target := File body]> f)
                end
          end
      end
  end.

(** ** External calls *)

(** [requests.Session]: HEAD and GET against the remote archive. *)
Module requests.

Definition head (url : string) : M Z := λ w,
  let w' := record_call (HttpHead url) w in
  match archive_head w url with
  | Some status_code => (Returns status_code, w')
  | None => (Raises (RequestException url), w')
  end.

Definition get (url : string) : M (Z * payload) := λ w,
  let w' := record_call (HttpGet url) w in
  match archive_get w url with
  | Some r => (Returns r, w')
  | None => (Raises (RequestException url), w')
  end.

(** [Response.raise_for_status]: 4xx and 5xx raise. *)
Definition raise_for_status (status_code : Z) : M unit :=
  if (400 <=? status_code) && (status_code <? 600)
  then mthrow (HTTPError status_code)
  else mret tt.

End requests.

(** One entry of a listing page ([obj["Key"]]) and one page of
    [list_objects_v2]; a page of an empty listing has no ["Contents"]. *)
Record S3Object : Type := mkObject { Key : string }.
Record Page : Type := mkPage { Contents : option (list S3Object) }.

(** [page.get("Contents", [])] *)
Definition page_contents (page : Page) : list S3Object :=
  default [] (Contents page).

Fixpoint insert_key (k : string) (sorted : list string) : list string :=
  match sorted with
  | [] => [k]
  | k' :: rest => if String.leb k k' then k :: sorted else k' :: insert_key k rest
  end.

(** Keys in ascending byte order, the order in which S3 lists them. *)
Definition sort_keys (keys : list string) : list string :=
  foldr insert_key [] keys.

Equations? chunks {A : Type} (size : nat) (l : list A) : list (list A)
  by wf (length l) lt :=
  chunks _ [] := [];
  chunks 0 (x :: l) := [x :: l];
  chunks (S n) (x :: l) := (x :: take n l) :: chunks (S n) (drop n l).
Proof. rewrite length_drop. lia. Qed.

(** Keys of [objects] that start with [prefix], as S3 lists them. *)
Definition listing (objects : gmap string payload) (prefix : string) : list string :=
  List.filter (String.prefix prefix) (sort_keys (map_to_list objects).*1).

Definition MaxKeys : nat := 1000.

Definition pages_of (keys : list string) : list Page :=
  match keys with
  | [] => [mkPage None]
  | _ => (λ c, mkPage (Some (mkObject <$> c))) <$> chunks MaxKeys keys
  end.

(** The [boto3] S3 client. *)
Module boto3.

Definition upload_fileobj (body : payload) (bucket key : string) : M unit := λ w,
  let w' := record_call (S3Upload bucket key) w in
  match s3 w !! bucket with
  | Some objects =>
      (Returns tt, with_s3 (<[bucket := <[key := body]> objects]> (s3 w)) w')
  | None => (Raises (ClientError "NoSuchBucket"), w')
  end.

(** [get_paginator("list_objects_v2").paginate(Bucket=..., Prefix=...)].
    The source pulls the pages one by one while it iterates; nothing it
    does in between changes the bucket, so they are taken when the
    iteration starts. *)
Definition paginate (bucket prefix : string) : M (list Page) := λ w,
  let w' := record_call (S3List bucket prefix) w in
  match s3 w !! bucket with
  | Some objects => (Returns (pages_of (listing objects prefix)), w')
  | None => (Raises (ClientError "NoSuchBucket"), w')
  end.

(** [download_file(bucket, key, str(dest))]: the object is asked for
    first, then written to the local path. *)
Definition download_file (bucket key : string) (dest : Path) : M unit := λ w,
  let w' := record_call (S3Download bucket key dest) w in
  match s3 w !! bucket with
  | None => (Raises (ClientError "NoSuchBucket"), w')
  | Some objects =>
      match objects !! key with
      | None => (Raises (ClientError "404"), w')
      | Some body =>
          match write_file (fs w) (cwd w) dest body with
          | inr f' => (Returns tt, with_fs f' w')
          | inl e => (Raises (OSError e dest), w')
          end
      end
  end.

End boto3.



(** [Path.exists], [Path.is_dir], [Path.mkdir]. *)
Module pathlib.

(** [Path.exists()]: a [stat] that fails because something on the way is
    missing or is not a directory means no. *)
Definition exists_ (path : Path) : M bool := λ w,
  (Returns (match os.stat (fs w) (cwd w) path with
            | inr _ => true
            | inl _ => false
            end),
   record_call (FsExists path) w).

(** [Path.is_dir()], as [mkdir] consults it. *)
Definition is_dir (f : FS) (cwd : list string) (path : Path) : bool :=
  match os.stat f cwd path with
  | inr (_, Dir) => true
  | _ => false
  end.

(** [Path.mkdir(parents=False, exist_ok=True)]: a missing parent is an
    error; any other failure is forgiven when the path is a directory. *)
Definition mkdir_exist_ok (f : FS) (cwd : list string) (path : Path)
    : option errno * FS :=
  match os.mkdir f cwd path with
  | inr f' => (None, f')
  | inl ENOENT => (Some ENOENT, f)
  | inl e => if is_dir f cwd path then (None, f) else (Some e, f)
  end.

(** [Path.mkdir(parents=True, exist_ok=True)] for the path with the
    components [rev rcs]: [os.mkdir] is tried; when something on the way
    is missing, the parent (the path without its last component, whatever
    that is) is made in the same way and [os.mkdir] is tried once more;
    any other failure is forgiven when the path is a directory.  What has
    been created stays when a later step fails. *)
Fixpoint mkdir_parents (f : FS) (cwd : list string) (anch : bool)
    (rcs : list string) : option errno * FS :=
  let path := mkPath anch (rev rcs) in
  match os.mkdir f cwd path with
  | inr f' => (None, f')
  | inl ENOENT =>
      match rcs with
      | [] => (Some ENOENT, f)
      | _ :: up =>
          match mkdir_parents f cwd anch up with
          | (None, f1) => mkdir_exist_ok f1 cwd path
          | failed => failed
          end
      end
  | inl e => if is_dir f cwd path then (None, f) else (Some e, f)
  end.

(** [path.mkdir(parents=True, exist_ok=True)] *)
Definition mkdir (path : Path) : M unit := λ w,
  let w' := record_call (FsMkdir path) w in
  match mkdir_parents (fs w) (cwd w) (anchored path) (rev (parts path)) with
  | (None, f') => (Returns tt, with_fs f' w')
  | (Some e, f') => (Raises (OSError e path), with_fs f' w')
  end.

End pathlib.

Module shutil.

(** [shutil.rmtree(path)]: raises for what is missing or is not a
    directory; otherwise removes all that is below the directory and then
    the directory itself, which fails, with the contents gone, when the
    path does not end in a name. *)
Definition rmtree (path : Path) : M unit := λ w,
  let w' := record_call (FsRmtree path) w in
  match os.stat (fs w) (cwd w) path with
  | inl e => (Raises (OSError e path), w')
  | inr (_, File _) => (Raises (OSError ENOTDIR path), w')
  | inr (loc, Dir) =>
      match last (parts path) with
      | Some c =>
          if String.eqb c ".."
          then (Raises (OSError EINVAL path),
                with_fs (filter (λ kv, ¬ (loc `prefix_of` kv.1 ∧ kv.1 ≠ loc))
                           (fs w)) w')
          else (Returns tt,
                with_fs (filter (λ kv, ¬ loc `prefix_of` kv.1) (fs w)) w')
      | None =>
          (Raises (OSError EINVAL path),
           with_fs (filter (λ kv, ¬ (loc `prefix_of` kv.1 ∧ kv.1 ≠ loc))
                      (fs w)) w')
      end
  end.

End shutil.

(** ** The module under verification *)

(** [bdi_api.settings.Settings]: the fields the module reads. *)
Record Settings : Type := mkSettings {
  s3_bucket : option string;
  source_url : string;
  raw_dir : string
}.

(** [if not s3_bucket]: [None] and the empty string are both false. *)
Definition truthy (s : option string) : option string :=
  match s with
  | Some EmptyString => None
  | other => other
  end.

Definition missing_bucket : exn :=
  ValueError "Missing S3 bucket. Set env var BDI_S3_BUCKET.".

Definition _ensure_empty_dir (path : Path) : M unit :=
  present ← pathlib.exists_ path;
  (if present : bool then shutil.rmtree path else mret tt);;
  pathlib.mkdir path.

Section Handlers.

Variable settings : Settings.

(** [bdi_api.s1.exercise.prepare_data], whose code is not part of this
    module: any computation that returns a string or raises. *)
Variable s1_prepare_data : M string.

Definition base_url : string :=
  source_url settings +:+ "/" +:+ REMOTE_DATE_PATH +:+ "/".

(** The [for filename in ...] loop of [download_data], with its counter. *)
Fixpoint download_loop (file_limit : Z) (bucket : string)
    (filenames : list string) (uploaded : Z) : M Z :=
  match filenames with
  | [] => mret uploaded
  | filename :: rest =>
      if uploaded >=? file_limit then mret uploaded
      else
        let url := base_url +:+ filename in
        head ← requests.head url;
        if negb (head =? 200) then download_loop file_limit bucket rest uploaded
        else
          let s3_key := S3_PREFIX +:+ filename in
          r ← requests.get url;
          requests.raise_for_status r.1;;
          boto3.upload_fileobj r.2 bucket s3_key;;
          download_loop file_limit bucket rest (uploaded + 1)
  end.

Definition download_data (file_limit : Z) : M string :=
  if file_limit <=? 0 then mret "OK uploaded=0"
  else
    match truthy (s3_bucket settings) with
    | None => mthrow missing_bucket
    | Some bucket =>
        uploaded ← download_loop file_limit bucket
                     _generate_readsb_filenames_every_5s 0;
        mret ("OK uploaded=" +:+ Py.str_int uploaded)
    end.

Definition local_raw_dir : Path :=
  joinpath (Path_of (raw_dir settings)) ("day=" +:+ DAY).

(** Body of the inner loop of [prepare_data]. *)
Definition fetch_object (bucket : string) (obj : S3Object) : M unit :=
  let key := Key obj in
  if Py.endswith key "/" then mret tt
  else
    let filename := Py.slice_from (String.length S3_PREFIX) key in
    let dest := joinpath local_raw_dir filename in
    pathlib.mkdir (parent dest);;
    boto3.download_file bucket key dest.

Definition prepare_data : M string :=
  match truthy (s3_bucket settings) with
  | None => mthrow missing_bucket
  | Some bucket =>
      _ensure_empty_dir local_raw_dir;;
      pages ← boto3.paginate bucket S3_PREFIX;
      for_each pages (λ page, for_each (page_contents page) (fetch_object bucket));;
      s1_prepare_data
  end.

End Handlers.


(** ** Vocabulary for stating properties of runs *)

Definition probed_urls (t : list Event) : list string :=
  omap (λ e, match e with HttpHead url => Some url | _ => None end) t.

Definition fetched_urls (t : list Event) : list string :=
  omap (λ e, match e with HttpGet url => Some url | _ => None end) t.

Definition uploaded_keys (t : list Event) : list string :=
  omap (λ e, match e with S3Upload _ key => Some key | _ => None end) t.



(** The calls made on the way from [w] to [w']. *)
Definition calls_since (w w' : World) : list Event :=
  drop (length (trace w)) (trace w').

(** Keys of a bucket that lie under a prefix. *)
Definition keys_under (prefix : string) (objects : gmap string payload) : gset string :=
  filter (λ key, String.prefix prefix key = true) (dom objects).

Section Archive.

Variable settings : Settings.
Variable w : World.

Definition url_of (filename : string) : string := base_url settings +:+ filename.

(** The probe of a token reports success. *)
Definition probe_ok (filename : string) : bool :=
  match archive_head w (url_of filename) with
  | Some status_code => status_code =? 200
  | None => false
  end.

(** The probe of a token is answered, with something else than success. *)
Definition probe_refused (filename : string) : bool :=
  match archive_head w (url_of filename) with
  | Some status_code => negb (status_code =? 200)
  | None => false
  end.

(** The fetch of a token is answered and [raise_for_status] lets it pass. *)
Definition fetch_ok (filename : string) : bool :=
  match archive_get w (url_of filename) with
  | Some (status_code, _) => negb ((400 <=? status_code) && (status_code <? 600))
  | None => false
  end.

Definition fetched_body (filename : string) : payload :=
  match archive_get w (url_of filename) with
  | Some (_, body) => body
  | None => []
  end.

(** The calls one uploaded token costs, and the bucket after a run of them. *)
Definition upload_calls (bucket filename : string) : list Event :=
  [HttpHead (url_of filename); HttpGet (url_of filename);
   S3Upload bucket (S3_PREFIX +:+ filename)].

Definition store_all (filenames : list string) (objects : gmap string payload)
    : gmap string payload :=
  foldl (λ o filename, <[S3_PREFIX +:+ filename := fetched_body filename]> o)
        objects filenames.

End Archive.

(** ** Vocabulary for the local file system *)

Definition is_dir (f : FS) (p : list string) : bool :=
  match f !! p with
  | Some Dir => true
  | _ => false
  end.






(** ** Sample configurations and worlds *)

Module Sample.

Definition configured : Settings :=
  mkSettings (Some "bdi-aircraft") "https://samples.example.org/readsb-hist" "data/raw".

Definition unconfigured : Settings :=
  mkSettings (Some "") "https://samples.example.org/readsb-hist" "data/raw".

(** An archive that has every file of the day, an empty bucket and an empty
    disk. *)
Definition all_there : World :=
  {| archive_head := λ _, Some 200;
     archive_get := λ _, Some (200, []);
     s3 := {[ "bdi-aircraft" := ∅ ]};
     fs := ∅;
     cwd := ["srv"; "app"];
     trace := [] |}.

(** The same, but the file of midnight is missing from the archive. *)
Definition first_missing : World :=
  {| archive_head := λ url,
       if String.eqb url (url_of configured "000000Z.json.gz")
       then Some 404 else Some 200;
     archive_get := λ _, Some (200, []);
     s3 := {[ "bdi-aircraft" := ∅ ]};
     fs := ∅;
     cwd := ["srv"; "app"];
     trace := [] |}.




(** A preparation routine that reports and touches nothing. *)
Definition inert_routine : M string := mret "OK".


End Sample.

(** * Properties *)

(** ** The filename generator *)

Section Generator.

Lemma generate_loop_spec secs out :
  generate_loop secs out = out ++ (readsb_filename <$> secs).
Proof.
  revert out. induction secs as [|sec rest IH]; intros out; simpl.
  - by rewrite app_nil_r.
  - by rewrite IH, <- app_assoc.
Qed.

Lemma filenames_as_map :
  _generate_readsb_filenames_every_5s
  = readsb_filename <$> Py.range 0 (24 * 60 * 60) 5.
Proof. unfold _generate_readsb_filenames_every_5s. by rewrite generate_loop_spec. Qed.

Lemma seq_strongly_sorted a n : StronglySorted lt (seq a n).
Proof.
  revert a. induction n as [|n IH]; intros a; simpl; constructor; [apply IH|].
  apply Forall_forall. intros x Hx. apply elem_of_seq in Hx. lia.
Qed.

Lemma range_from_multiples count start step :
  Py.range_from count start step
  = (λ i : nat, start + step * Z.of_nat i) <$> seq 0 count.
Proof.
  revert start. induction count as [|n IH]; intros start; [done|].
  simpl. f_equal; [lia|].
  rewrite IH, <- fmap_S_seq, <- list_fmap_compose.
  apply list_fmap_ext. intros _ i _. simpl. lia.
Qed.

Lemma range_sorted start stop step :
  0 < step → StronglySorted Z.lt (Py.range start stop step).
Proof.
  intros Hstep. unfold Py.range. rewrite range_from_multiples.
  apply StronglySorted_fmap with (R1 := lt); [|apply seq_strongly_sorted].
  intros x y Hxy. nia.
Qed.

Lemma range_as_multiples :
  Py.range 0 (24 * 60 * 60) 5 = (λ i : nat, 5 * Z.of_nat i) <$> seq 0 (Z.to_nat 17280).
Proof.
  unfold Py.range. rewrite range_from_multiples.
  replace (Py.range_length 0 (24 * 60 * 60) 5) with (Z.to_nat 17280)
    by (by vm_compute).
  apply list_fmap_ext. intros _ i _. lia.
Qed.

Lemma map_seconds :
  token_seconds <$> (readsb_filename <$> Py.range 0 (24 * 60 * 60) 5)
  = Some <$> Py.range 0 (24 * 60 * 60) 5.
Proof. apply (bool_decide_eq_true_1 _). vm_compute. reflexivity. Qed.

(** Every token reads back as the second it was generated for. *)
Lemma filenames_seconds :
  token_seconds <$> _generate_readsb_filenames_every_5s
  = Some <$> Py.range 0 (24 * 60 * 60) 5.
Proof. rewrite filenames_as_map. apply map_seconds. Qed.

Lemma sorted_by_seconds (l : list string) (ts : list Z) :
  token_seconds <$> l = Some <$> ts →
  StronglySorted Z.lt ts → StronglySorted earlier l.
Proof.
  revert ts. induction l as [|a l IH]; intros [|t ts] Heq Hs;
    try discriminate; [constructor|].
  simpl in Heq. injection Heq as Ha Hl.
  apply StronglySorted_inv in Hs as [Hs Hall].
  constructor; [by eapply IH|].
  apply Forall_forall. intros b Hb.
  assert (token_seconds b ∈ token_seconds <$> l) as Hin
    by (by apply list_elem_of_fmap_2).
  fold (@fmap list _ _ _ token_seconds l) in Hl.
  rewrite Hl in Hin.
  apply list_elem_of_fmap in Hin as (tb & Hot & Hin).
  unfold earlier. rewrite Ha, Hot.
  rewrite Forall_forall in Hall. by apply Hall.
Qed.

(** Only strings of the form [HHMMSSZ.json.gz] read back as a time. *)
Lemma token_seconds_form token t :
  token_seconds token = Some t →
  String.length token = 15%nat ∧ 0 ≤ t < 86400.
Proof.
  unfold token_seconds.
  destruct token as [|h1 [|h2 [|m1 [|m2 [|s1 [|s2 rest]]]]]]; try discriminate.
  destruct (String.eqb rest "Z.json.gz") eqn:Hrest; [|discriminate].
  apply String.eqb_eq in Hrest as ->.
  destruct (two_digits h1 h2) as [hh|] eqn:Hh; [|discriminate].
  destruct (two_digits m1 m2) as [mm|] eqn:Hm; [|discriminate].
  destruct (two_digits s1 s2) as [ss|] eqn:Hs; [|discriminate].
  simpl.
  destruct ((hh <? 24) && (mm <? 60) && (ss <? 60)) eqn:Hb; [|discriminate].
  intros [= <-]. split; [reflexivity|].
  assert (∀ a b v, two_digits a b = Some v → 0 ≤ v) as Hpos.
  { intros a b v. unfold two_digits, digit_value.
    repeat case_match; simpl; try discriminate. intros [= <-]. lia. }
  apply Hpos in Hh, Hm, Hs. lia.
Qed.

Lemma filenames_sorted : StronglySorted earlier _generate_readsb_filenames_every_5s.
Proof.
  eapply sorted_by_seconds; [apply filenames_seconds|].
  by apply range_sorted.
Qed.

Lemma filenames_length : length _generate_readsb_filenames_every_5s = Z.to_nat 17280.
Proof.
  rewrite filenames_as_map, length_fmap, range_as_multiples, length_fmap.
  apply length_seq.
Qed.

Lemma filenames_NoDup : NoDup _generate_readsb_filenames_every_5s.
Proof.
  apply (NoDup_fmap_1 token_seconds). rewrite filenames_seconds.
  apply (NoDup_fmap_2 _). rewrite range_as_multiples.
  apply NoDup_fmap_2; [intros x y ?; lia | apply NoDup_seq].
Qed.

End Generator.

(** From here on the token list is used through the lemmas above only. *)
Opaque _generate_readsb_filenames_every_5s.

(** C6.  The generator returns 17,280 tokens; the [i]-th one has the form
    [HHMMSSZ.json.gz] (15 characters that [token_seconds] reads back) and
    denotes second [5 * i] of the day, so that every 5-second boundary from
    00:00:00 to 23:59:55 occurs exactly once; and each token denotes an
    earlier time of day than all tokens after it. *)
Theorem generator_tokens :
  length _generate_readsb_filenames_every_5s = Z.to_nat 17280
  ∧ Forall (λ token, String.length token = 15%nat)
           _generate_readsb_filenames_every_5s
  ∧ token_seconds <$> _generate_readsb_filenames_every_5s
    = (λ i : nat, Some (5 * Z.of_nat i)) <$> seq 0 (Z.to_nat 17280)
  ∧ StronglySorted earlier _generate_readsb_filenames_every_5s.
Proof.
  split; [apply filenames_length|].
  split.
  { apply Forall_forall. intros token Hin.
    apply (list_elem_of_fmap_2 token_seconds) in Hin.
    rewrite filenames_seconds in Hin.
    apply list_elem_of_fmap in Hin as (t & Ht & _).
    by apply token_seconds_form in Ht as [? _]. }
  split; [|apply filenames_sorted].
  rewrite filenames_seconds, range_as_multiples.
  by rewrite <- list_fmap_compose.
Qed.

(** ** The download loop *)

Ltac run_step :=
  unfold mbind, M_bind, mret, M_ret, mthrow, M_throw,
         requests.head, requests.get, requests.raise_for_status,
         boto3.upload_fileobj; simpl.

Section DownloadLoop.

Variable settings : Settings.
Variable file_limit : Z.
Variable bucket : string.

Local Abbreviation loop := (download_loop settings file_limit bucket).

Lemma geb_false (a b : Z) : a < b → (a >=? b) = false.
Proof. intros. rewrite Z.geb_leb. by apply Z.leb_gt. Qed.

Lemma geb_true (a b : Z) : b ≤ a → (a >=? b) = true.
Proof. intros. rewrite Z.geb_leb. by apply Z.leb_le. Qed.

Lemma download_loop_done filenames uploaded w :
  file_limit ≤ uploaded → loop filenames uploaded w = (Returns uploaded, w).
Proof.
  intros Hge. destruct filenames as [|f rest]; [done|]. simpl.
  by rewrite geb_true.
Qed.

(** Tokens whose probe is refused cost one HEAD each and nothing else. *)
Lemma download_loop_refused fails rest uploaded w :
  uploaded < file_limit →
  forallb (probe_refused settings w) fails = true →
  loop (fails ++ rest) uploaded w
  = loop rest uploaded
      (with_trace (trace w ++ (HttpHead ∘ url_of settings <$> fails)) w).
Proof.
  intros Hlt. revert w. induction fails as [|f fails IH]; intros w Hall.
  - simpl. destruct w; unfold with_trace; simpl. by rewrite app_nil_r.
  - simpl in Hall. apply andb_true_iff in Hall as [Hf Hall].
    simpl. rewrite geb_false by done.
    run_step. unfold probe_refused, url_of in Hf.
    destruct (archive_head w (base_url settings +:+ f)) as [c|]; [|done].
    rewrite Hf. rewrite IH by done. simpl.
    unfold with_trace, record_call; simpl. by rewrite <- app_assoc.
Qed.

Lemma world_unchanged w objects :
  s3 w !! bucket = Some objects →
  with_s3 (<[bucket := objects]> (s3 w)) (with_trace (trace w ++ []) w) = w.
Proof.
  intros Hobj. destruct w; unfold with_s3, with_trace; simpl in *.
  by rewrite app_nil_r, insert_id.
Qed.

(** Tokens that are all there are uploaded one after another until the
    limit is reached. *)
Lemma download_loop_available filenames uploaded w objects :
  forallb (λ f, probe_ok settings w f && fetch_ok settings w f) filenames = true →
  s3 w !! bucket = Some objects →
  let ups := take (Z.to_nat (file_limit - uploaded)) filenames in
  loop filenames uploaded w
  = (Returns (uploaded + Z.of_nat (length ups)),
     with_s3 (<[bucket := store_all settings w ups objects]> (s3 w))
       (with_trace (trace w ++ (ups ≫= upload_calls settings bucket)) w)).
Proof.
  revert uploaded w objects.
  induction filenames as [|f rest IH]; intros uploaded w objects Hall Hobj ups.
  - subst ups. rewrite take_nil. simpl.
    rewrite world_unchanged by done. unfold mret, M_ret. do 2 f_equal. lia.
  - destruct (decide (file_limit ≤ uploaded)) as [Hge|Hlt].
    + rewrite download_loop_done by done. subst ups.
      replace (Z.to_nat (file_limit - uploaded)) with O by lia. simpl.
      rewrite world_unchanged by done. do 2 f_equal. lia.
    + subst ups.
      replace (Z.to_nat (file_limit - uploaded))
        with (S (Z.to_nat (file_limit - (uploaded + 1)))) by lia.
      simpl in Hall. apply andb_true_iff in Hall as [Hf Hall].
      apply andb_true_iff in Hf as [Hprobe Hfetch].
      simpl. rewrite geb_false by lia. run_step.
      unfold probe_ok, fetch_ok, url_of in Hprobe, Hfetch.
      destruct (archive_head w (base_url settings +:+ f)) as [c|] eqn:Hhead;
        [|done].
      rewrite Hprobe. simpl.
      destruct (archive_get w (base_url settings +:+ f)) as [[c' body]|] eqn:Hget;
        [|done].
      simpl. apply negb_true_iff in Hfetch. rewrite Hfetch. simpl.
      simpl in Hobj. rewrite Hobj.
      erewrite IH; [|exact Hall|simpl; apply lookup_insert_eq].
      f_equal; [f_equal; lia|].
      unfold with_s3, with_trace, record_call, store_all, fetched_body, url_of.
      simpl. rewrite Hget, insert_insert_eq, <- !app_assoc. done.
Qed.

End DownloadLoop.

(** ** Where a download stops *)

Section DownloadStops.

Variable settings : Settings.
Variable file_limit : Z.
Variable bucket : string.

Local Abbreviation loop := (download_loop settings file_limit bucket).

(** The shape of the calls of any run of the loop, failed or not: the
    probes go through a prefix of the tokens, the uploads attempted are
    among them, they never exceed what the limit leaves, and when they
    exhaust it the last token probed is the last one uploaded. *)
Lemma download_loop_shape filenames uploaded w :
  ∃ (m : nat) (ups : list string) (calls : list Event),
    trace (loop filenames uploaded w).2 = trace w ++ calls
    ∧ probed_urls calls = url_of settings <$> take m filenames
    ∧ uploaded_keys calls = String.append S3_PREFIX <$> ups
    ∧ (file_limit ≤ uploaded → m = O ∧ ups = [])
    ∧ (uploaded < file_limit → uploaded + Z.of_nat (length ups) ≤ file_limit)
    ∧ (uploaded < file_limit →
       uploaded + Z.of_nat (length ups) = file_limit →
       ∃ f, last ups = Some f ∧ last (take m filenames) = Some f).
Proof.
  revert uploaded w.
  induction filenames as [|f rest IH]; intros uploaded w.
  { exists O, [], []. simpl. rewrite app_nil_r.
    repeat split; try done; lia. }
  destruct (decide (file_limit ≤ uploaded)) as [Hge|Hlt].
  { exists O, [], []. rewrite download_loop_done by done. simpl.
    rewrite app_nil_r. repeat split; try done; lia. }
  simpl. rewrite geb_false by lia. run_step.
  destruct (archive_head w _) as [c|] eqn:Hhead; simpl.
  2:{ exists 1%nat, [], [HttpHead (url_of settings f)]. simpl.
      repeat split; try done; lia. }
  destruct (c =? 200) eqn:Hc; simpl.
  2:{ destruct (IH uploaded (record_call (HttpHead (base_url settings +:+ f)) w))
        as (m & ups & calls & Htr & Hp & Hu & Hz & Hle & Hlast).
      exists (S m), ups, (HttpHead (url_of settings f) :: calls).
      rewrite Htr. simpl. rewrite <- app_assoc.
      split; [done|]. split; [unfold probed_urls in *; simpl; by f_equal|].
      split; [done|]. split; [lia|]. split; [done|].
      intros H1 H2. destruct (Hlast H1 H2) as (x & Hx & Hx').
      exists x. split; [done|].
      destruct (take m rest); [done | by simpl in *]. }
  destruct (archive_get w _) as [[c' body]|] eqn:Hget; simpl.
  2:{ exists 1%nat, [], [HttpHead (url_of settings f); HttpGet (url_of settings f)].
      simpl. rewrite <- app_assoc.
      repeat split; try done; lia. }
  destruct ((400 <=? c') && (c' <? 600)) eqn:Hstatus; simpl.
  { exists 1%nat, [], [HttpHead (url_of settings f); HttpGet (url_of settings f)].
    simpl. rewrite <- app_assoc.
    repeat split; try done; lia. }
  destruct (s3 w !! bucket) as [objects|] eqn:Hobj; simpl.
  2:{ exists 1%nat, [f], (upload_calls settings bucket f).
      simpl. rewrite <- !app_assoc.
      repeat split; try done; try lia. by exists f. }
  match goal with |- context [loop rest _ ?w1] =>
    destruct (IH (uploaded + 1) w1)
      as (m & ups & calls & Htr & Hp & Hu & Hz & Hle & Hlast) end.
  exists (S m), (f :: ups), (upload_calls settings bucket f ++ calls).
  rewrite Htr. simpl. rewrite <- !app_assoc.
  split; [done|]. split; [unfold probed_urls in *; simpl; by f_equal|].
  split; [unfold uploaded_keys in *; simpl; by f_equal|].
  split; [lia|].
  destruct (decide (file_limit ≤ uploaded + 1)) as [Hfull|Hroom].
  - destruct (Hz Hfull) as [-> ->]. simpl.
    split; [lia|]. intros _ _. by exists f.
  - split; [lia|]. intros _ Hsum.
    destruct (Hlast ltac:(lia) ltac:(lia)) as (x & Hx & Hx').
    exists x. destruct ups; [done|]. destruct (take m rest); [done|].
    by simpl in *.
Qed.

End DownloadStops.

(** ** Reading the trace of a download *)

Section DownloadTrace.

Variable settings : Settings.
Variable bucket : string.

Lemma calls_since_app w w' calls :
  trace w' = trace w ++ calls → calls_since w w' = calls.
Proof. unfold calls_since. intros ->. by rewrite drop_app_length. Qed.

Lemma skipped_calls (l : list string) :
  probed_urls (HttpHead ∘ url_of settings <$> l) = url_of settings <$> l
  ∧ fetched_urls (HttpHead ∘ url_of settings <$> l) = []
  ∧ uploaded_keys (HttpHead ∘ url_of settings <$> l) = [].
Proof.
  unfold probed_urls, fetched_urls, uploaded_keys.
  repeat split; (induction l as [|f l IH]; simpl; [done | by try f_equal]).
Qed.

Lemma uploaded_calls (l : list string) :
  probed_urls (l ≫= upload_calls settings bucket) = url_of settings <$> l
  ∧ fetched_urls (l ≫= upload_calls settings bucket) = url_of settings <$> l
  ∧ uploaded_keys (l ≫= upload_calls settings bucket)
    = String.append S3_PREFIX <$> l.
Proof.
  unfold probed_urls, fetched_urls, uploaded_keys.
  repeat split; (induction l as [|f l IH]; simpl; [done | by try f_equal]).
Qed.

Lemma store_all_dom w (l : list string) (objects : gmap string payload) :
  dom (store_all settings w l objects)
  = dom objects ∪ list_to_set (String.append S3_PREFIX <$> l).
Proof.
  revert objects. induction l as [|f l IH]; intros objects; simpl.
  - set_solver.
  - unfold store_all in *. simpl. rewrite IH, dom_insert_L. set_solver.
Qed.

Lemma prefix_append (a b : string) : String.prefix a (a +:+ b) = true.
Proof.
  induction a as [|c a IH]; simpl; [by destruct b|].
  destruct (ascii_dec c c); [done | congruence].
Qed.

Lemma keys_under_store_all w (l : list string) (objects : gmap string payload) :
  keys_under S3_PREFIX (store_all settings w l objects)
  = keys_under S3_PREFIX objects ∪ list_to_set (String.append S3_PREFIX <$> l).
Proof.
  unfold keys_under. rewrite store_all_dom.
  apply set_eq. intros key.
  rewrite elem_of_filter, !elem_of_union, elem_of_filter, elem_of_list_to_set.
  split; [tauto|]. intros [[? ?]|Hin]; [tauto|].
  split; [|tauto].
  apply list_elem_of_fmap in Hin as (f & -> & _). apply prefix_append.
Qed.

End DownloadTrace.

(** ** The downloader *)

Section Downloader.

Variable settings : Settings.

Local Abbreviation filenames := _generate_readsb_filenames_every_5s.

(** The complete run when the probes of the first [k] tokens are refused
    and every later token is there. *)
Lemma download_data_run (k : nat) (file_limit : Z) w bucket objects :
  0 < file_limit →
  truthy (s3_bucket settings) = Some bucket →
  s3 w !! bucket = Some objects →
  forallb (probe_refused settings w) (take k filenames) = true →
  forallb (λ f, probe_ok settings w f && fetch_ok settings w f)
          (drop k filenames) = true →
  let ups := take (Z.to_nat file_limit) (drop k filenames) in
  download_data settings file_limit w
  = (Returns ("OK uploaded=" +:+ Py.str_int (Z.of_nat (length ups))),
     with_s3 (<[bucket := store_all settings w ups objects]> (s3 w))
       (with_trace
          (trace w ++ (HttpHead ∘ url_of settings <$> take k filenames)
                   ++ (ups ≫= upload_calls settings bucket)) w)).
Proof.
  intros Hn Hb Hobj Hfail Hok ups. unfold download_data.
  rewrite (proj2 (Z.leb_gt _ _) Hn), Hb.
  rewrite <- (take_drop k filenames) at 1.
  unfold mbind at 1, M_bind at 1.
  rewrite download_loop_refused by done.
  erewrite download_loop_available; [|exact Hok|exact Hobj].
  unfold mret, M_ret. rewrite Z.sub_0_r, Z.add_0_l.
  unfold with_s3, with_trace. simpl. by rewrite <- app_assoc.
Qed.

(** The loop raises what the calls it makes raise, never a [ValueError]. *)
Lemma download_loop_no_value_error file_limit bucket l uploaded w msg :
  (download_loop settings file_limit bucket l uploaded w).1 ≠ Raises (ValueError msg).
Proof.
  revert uploaded w. induction l as [|f l IH]; intros uploaded w; [done|].
  simpl. destruct (uploaded >=? file_limit); [done|]. run_step.
  destruct (archive_head w _) as [c|]; [|done].
  destruct (c =? 200); simpl; [|apply IH].
  destruct (archive_get w _) as [[c' body]|]; [|done]. simpl.
  destruct ((400 <=? c') && (c' <? 600)); [done|]. simpl.
  destruct (s3 w !! bucket); [apply IH | done].
Qed.

Lemma filenames_take_length (n : Z) :
  0 < n → Z.of_nat (length (take (Z.to_nat n) filenames)) = Z.min n 17280.
Proof. intros Hn. rewrite length_take, filenames_length. lia. Qed.

Lemma take_beyond_day (n : Z) :
  take (Z.to_nat n) filenames = take (Z.to_nat (Z.min n 17280)) filenames.
Proof.
  destruct (decide (n ≤ 17280)) as [Hle|Hgt].
  - by rewrite Z.min_l.
  - rewrite Z.min_r by lia.
    rewrite !take_ge; [done | |]; rewrite filenames_length; lia.
Qed.

Lemma sample_all_there :
  forallb (λ f, probe_ok Sample.configured Sample.all_there f
                && fetch_ok Sample.configured Sample.all_there f)
          filenames = true.
Proof. rewrite filenames_as_map. by vm_compute. Qed.

End Downloader.

(** C3.  With a limit of zero or less the downloader returns
    ["OK uploaded=0"] and leaves the world as it found it: the trace gains
    no call, so there is no probe, no fetch and no storage write. *)
Theorem nonpositive_limit_no_calls settings (file_limit : Z) w :
  file_limit ≤ 0 →
  download_data settings file_limit w = (Returns "OK uploaded=0", w)
  ∧ calls_since w (download_data settings file_limit w).2 = [].
Proof.
  intros Hle. unfold download_data. rewrite (proj2 (Z.leb_le _ _) Hle).
  split; [done|]. unfold calls_since. simpl. by rewrite drop_all.
Qed.

Lemma nonpositive_limit_no_calls_witness :
  -3 ≤ 0
  ∧ download_data Sample.configured (-3) Sample.all_there
    = (Returns "OK uploaded=0", Sample.all_there)
  ∧ calls_since Sample.all_there
      (download_data Sample.configured (-3) Sample.all_there).2 = [].
Proof.
  split; [lia|].
  apply (nonpositive_limit_no_calls Sample.configured (-3) Sample.all_there). lia.
Defined.

(** C10.  The limit is looked at before the bucket: with a limit of zero or
    less the downloader returns ["OK uploaded=0"] whatever the bucket
    setting, also when none is configured; the missing-bucket error is
    raised exactly when the limit is positive and no bucket is configured. *)
Theorem limit_checked_before_bucket settings (file_limit : Z) w :
  (file_limit ≤ 0 → truthy (s3_bucket settings) = None →
   download_data settings file_limit w = (Returns "OK uploaded=0", w))
  ∧ ((download_data settings file_limit w).1 = Raises missing_bucket
     ↔ 0 < file_limit ∧ truthy (s3_bucket settings) = None).
Proof.
  split.
  - intros Hle _. unfold download_data. by rewrite (proj2 (Z.leb_le _ _) Hle).
  - unfold download_data. destruct (file_limit <=? 0) eqn:Hcmp.
    + apply Z.leb_le in Hcmp. split; [done | lia].
    + apply Z.leb_gt in Hcmp.
      destruct (truthy (s3_bucket settings)) as [bucket|] eqn:Hb.
      * split; [|by intros [_ ?]]. unfold mbind, M_bind.
        pose proof (download_loop_no_value_error settings file_limit bucket
                      _generate_readsb_filenames_every_5s 0 w
                      "Missing S3 bucket. Set env var BDI_S3_BUCKET.") as Hloop.
        destruct (download_loop _ _ _ _ _ _) as [[u|e] w']; simpl in *; [done|].
        intros [= ->]. by destruct Hloop.
      * split; [by split | done].
Qed.

Lemma limit_checked_before_bucket_witness :
  (0 ≤ 0 ∧ truthy (s3_bucket Sample.unconfigured) = None ∧ 0 < 1)
  ∧ download_data Sample.unconfigured 0 Sample.all_there
    = (Returns "OK uploaded=0", Sample.all_there)
  ∧ (download_data Sample.unconfigured 1 Sample.all_there).1
    = Raises missing_bucket.
Proof.
  split; [split; [lia|]; split; [reflexivity | lia]|]. split.
  - apply (proj1 (limit_checked_before_bucket Sample.unconfigured 0
                    Sample.all_there)); [lia | reflexivity].
  - apply (proj2 (limit_checked_before_bucket Sample.unconfigured 1
                    Sample.all_there)). split; [lia | reflexivity].
Defined.

(** C1, as the code has it.  With a bucket configured and present, and
    every token of the day answering both its probe and its fetch, a limit
    [n > 0] makes the downloader upload the first [min n 17280] tokens under
    [raw/day=20231101/] and return ["OK uploaded=" ++ str (min n 17280)]:
    exactly [n] objects for every [n] up to the 17,280 tokens of the day.
    The keys under the prefix afterwards are those already there plus the
    uploaded ones, hence exactly [min n 17280] of them in a bucket that
    held none. *)
Theorem uploads_up_to_limit settings (file_limit : Z) w bucket objects :
  0 < file_limit →
  truthy (s3_bucket settings) = Some bucket →
  s3 w !! bucket = Some objects →
  forallb (λ f, probe_ok settings w f && fetch_ok settings w f)
          _generate_readsb_filenames_every_5s = true →
  let count := Z.min file_limit 17280 in
  let ups := take (Z.to_nat count) _generate_readsb_filenames_every_5s in
  ∃ w' objects',
    download_data settings file_limit w
    = (Returns ("OK uploaded=" +:+ Py.str_int count), w')
    ∧ uploaded_keys (calls_since w w') = String.append S3_PREFIX <$> ups
    ∧ Z.of_nat (length (uploaded_keys (calls_since w w'))) = count
    ∧ s3 w' !! bucket = Some objects'
    ∧ keys_under S3_PREFIX objects'
      = keys_under S3_PREFIX objects ∪ list_to_set (String.append S3_PREFIX <$> ups)
    ∧ (keys_under S3_PREFIX objects = ∅ →
       Z.of_nat (size (keys_under S3_PREFIX objects')) = count).
Proof.
  intros Hn Hb Hobj Hok count ups.
  pose proof (download_data_run settings 0 file_limit w bucket objects
                Hn Hb Hobj eq_refl Hok) as Hrun.
  simpl in Hrun. rewrite take_beyond_day in Hrun. fold count ups in Hrun.
  assert (Z.of_nat (length ups) = count) as Hlen.
  { subst ups count. rewrite <- take_beyond_day. by apply filenames_take_length. }
  rewrite Hlen in Hrun.
  eexists _, _. split; [exact Hrun|].
  erewrite calls_since_app by (simpl; reflexivity).
  destruct (uploaded_calls settings bucket ups) as (_ & _ & Hup).
  rewrite Hup, length_fmap.
  repeat split; [done | by simpl; rewrite lookup_insert_eq | apply keys_under_store_all |].
  intros Hempty. rewrite keys_under_store_all, Hempty, union_empty_l_L.
  rewrite size_list_to_set, length_fmap; [done|].
  apply (NoDup_fmap_2 _). eapply sublist_NoDup; [apply filenames_NoDup|].
  apply sublist_take.
Qed.

Lemma uploads_up_to_limit_witness :
  (0 < 3
   ∧ truthy (s3_bucket Sample.configured) = Some "bdi-aircraft"
   ∧ s3 Sample.all_there !! "bdi-aircraft" = Some ∅
   ∧ forallb (λ f, probe_ok Sample.configured Sample.all_there f
                   && fetch_ok Sample.configured Sample.all_there f)
             _generate_readsb_filenames_every_5s = true)
  ∧ ∃ w' objects',
      download_data Sample.configured 3 Sample.all_there
      = (Returns ("OK uploaded=" +:+ Py.str_int (Z.min 3 17280)), w')
      ∧ uploaded_keys (calls_since Sample.all_there w')
        = String.append S3_PREFIX
            <$> take (Z.to_nat (Z.min 3 17280)) _generate_readsb_filenames_every_5s
      ∧ Z.of_nat (length (uploaded_keys (calls_since Sample.all_there w')))
        = Z.min 3 17280
      ∧ s3 w' !! "bdi-aircraft" = Some objects'
      ∧ keys_under S3_PREFIX objects'
        = keys_under S3_PREFIX ∅
          ∪ list_to_set (String.append S3_PREFIX
              <$> take (Z.to_nat (Z.min 3 17280)) _generate_readsb_filenames_every_5s)
      ∧ (keys_under S3_PREFIX (∅ : gmap string payload) = ∅ →
         Z.of_nat (size (keys_under S3_PREFIX objects')) = Z.min 3 17280).
Proof.
  split.
  - split; [lia|]. split; [reflexivity|]. split; [reflexivity|].
    rewrite filenames_as_map. vm_compute. reflexivity.
  - apply (uploads_up_to_limit Sample.configured 3 Sample.all_there
             "bdi-aircraft" ∅); [lia | reflexivity | reflexivity |].
    rewrite filenames_as_map. vm_compute. reflexivity.
Defined.

(** C1 as stated fails beyond the tokens of one day: with every probe and
    fetch succeeding and a limit of 17,281 the downloader reports 17,280
    uploads, not 17,281. *)
Lemma limit_beyond_day_counterexample :
  forallb (λ f, probe_ok Sample.configured Sample.all_there f
                && fetch_ok Sample.configured Sample.all_there f)
          _generate_readsb_filenames_every_5s = true
  ∧ (download_data Sample.configured 17281 Sample.all_there).1
    = Returns "OK uploaded=17280"
  ∧ (download_data Sample.configured 17281 Sample.all_there).1
    ≠ Returns "OK uploaded=17281"
  ∧ Z.of_nat (length (uploaded_keys
        (calls_since Sample.all_there
           (download_data Sample.configured 17281 Sample.all_there).2)))
    = 17280.
Proof.
  pose proof sample_all_there as Hok. split; [exact Hok|].
  pose proof (download_data_run Sample.configured 0 17281 Sample.all_there
                "bdi-aircraft" ∅ ltac:(lia) eq_refl eq_refl eq_refl Hok) as Hrun.
  cbv zeta in Hrun. rewrite Hrun.
  assert (Z.of_nat (length (take (Z.to_nat 17281)
            (drop 0 _generate_readsb_filenames_every_5s))) = 17280) as Hlen.
  { rewrite drop_0, filenames_take_length; lia. }
  rewrite Hlen. split; [by vm_compute|]. split; [by vm_compute|].
  simpl snd. erewrite calls_since_app by (simpl; reflexivity).
  destruct (uploaded_calls Sample.configured "bdi-aircraft"
              (take (Z.to_nat 17281) (drop 0 _generate_readsb_filenames_every_5s)))
    as (_ & _ & Hup).
  by rewrite Hup, length_fmap.
Qed.

(** C2.  When the probes of the first [k] tokens are refused and every later
    token answers its probe and its fetch, a limit [n > 0] makes the
    downloader upload the first [n] tokens after those [k] (all of them when
    fewer than [n] remain in the day, exactly [n] otherwise) rather than the
    first [n] tokens of the day.  Every refused token is probed, no URL is
    probed twice, and a refused token is neither fetched nor uploaded; the
    reported count is the number of uploads. *)
Theorem failed_probes_skipped settings (k : nat) (file_limit : Z) w bucket objects :
  0 < file_limit →
  truthy (s3_bucket settings) = Some bucket →
  s3 w !! bucket = Some objects →
  forallb (probe_refused settings w)
          (take k _generate_readsb_filenames_every_5s) = true →
  forallb (λ f, probe_ok settings w f && fetch_ok settings w f)
          (drop k _generate_readsb_filenames_every_5s) = true →
  let skipped := take k _generate_readsb_filenames_every_5s in
  let ups := take (Z.to_nat file_limit) (drop k _generate_readsb_filenames_every_5s) in
  ∃ w',
    download_data settings file_limit w
    = (Returns ("OK uploaded=" +:+ Py.str_int (Z.of_nat (length ups))), w')
    ∧ (Z.of_nat k + file_limit ≤ 17280 → Z.of_nat (length ups) = file_limit)
    ∧ uploaded_keys (calls_since w w') = String.append S3_PREFIX <$> ups
    ∧ fetched_urls (calls_since w w') = url_of settings <$> ups
    ∧ probed_urls (calls_since w w') = url_of settings <$> (skipped ++ ups)
    ∧ NoDup (probed_urls (calls_since w w'))
    ∧ Forall (λ f, (url_of settings f) ∉ fetched_urls (calls_since w w')
                   ∧ (S3_PREFIX +:+ f) ∉ uploaded_keys (calls_since w w'))
             skipped.
Proof.
  intros Hn Hb Hobj Hfail Hok skipped ups.
  pose proof (download_data_run settings k file_limit w bucket objects
                Hn Hb Hobj Hfail Hok) as Hrun.
  cbv zeta in Hrun. fold skipped ups in Hrun.
  eexists. split; [exact Hrun|].
  split.
  { intros Hroom. subst ups.
    rewrite length_take, length_drop, filenames_length. lia. }
  erewrite calls_since_app by (simpl; reflexivity).
  destruct (uploaded_calls settings bucket ups) as (Hp & Hf & Hu).
  destruct (skipped_calls settings skipped) as (Hp' & Hf' & Hu').
  unfold probed_urls, fetched_urls, uploaded_keys in *.
  rewrite !omap_app, Hp, Hf, Hu, Hp', Hf', Hu', fmap_app. simpl.
  assert (NoDup (skipped ++ ups)) as Hnd.
  { subst skipped ups. rewrite take_take_drop.
    eapply sublist_NoDup; [apply filenames_NoDup | apply sublist_take]. }
  repeat split; [by rewrite <- fmap_app; apply (NoDup_fmap_2 _)|].
  apply NoDup_app in Hnd as (_ & Hdisj & _).
  apply Forall_forall. intros f Hin.
  split; (intros Hin'; apply list_elem_of_fmap in Hin' as (f' & Heq & Hin');
          apply (inj _) in Heq as <-; by apply (Hdisj f)).
Qed.

Lemma failed_probes_skipped_witness :
  (0 < 2
   ∧ truthy (s3_bucket Sample.configured) = Some "bdi-aircraft"
   ∧ s3 Sample.first_missing !! "bdi-aircraft" = Some ∅
   ∧ forallb (probe_refused Sample.configured Sample.first_missing)
             (take 1 _generate_readsb_filenames_every_5s) = true
   ∧ forallb (λ f, probe_ok Sample.configured Sample.first_missing f
                   && fetch_ok Sample.configured Sample.first_missing f)
             (drop 1 _generate_readsb_filenames_every_5s) = true)
  ∧ ∃ w',
      download_data Sample.configured 2 Sample.first_missing
      = (Returns ("OK uploaded="
                  +:+ Py.str_int (Z.of_nat (length
                        (take (Z.to_nat 2)
                           (drop 1 _generate_readsb_filenames_every_5s))))), w')
      ∧ (Z.of_nat 1 + 2 ≤ 17280 →
         Z.of_nat (length (take (Z.to_nat 2)
                             (drop 1 _generate_readsb_filenames_every_5s))) = 2)
      ∧ uploaded_keys (calls_since Sample.first_missing w')
        = String.append S3_PREFIX
            <$> take (Z.to_nat 2) (drop 1 _generate_readsb_filenames_every_5s)
      ∧ fetched_urls (calls_since Sample.first_missing w')
        = url_of Sample.configured
            <$> take (Z.to_nat 2) (drop 1 _generate_readsb_filenames_every_5s)
      ∧ probed_urls (calls_since Sample.first_missing w')
        = url_of Sample.configured
            <$> (take 1 _generate_readsb_filenames_every_5s
                 ++ take (Z.to_nat 2) (drop 1 _generate_readsb_filenames_every_5s))
      ∧ NoDup (probed_urls (calls_since Sample.first_missing w'))
      ∧ Forall (λ f, (url_of Sample.configured f)
                       ∉ fetched_urls (calls_since Sample.first_missing w')
                     ∧ (S3_PREFIX +:+ f)
                       ∉ uploaded_keys (calls_since Sample.first_missing w'))
               (take 1 _generate_readsb_filenames_every_5s).
Proof.
  split.
  - split; [lia|]. split; [reflexivity|]. split; [reflexivity|].
    rewrite filenames_as_map. split; vm_compute; reflexivity.
  - apply (failed_probes_skipped Sample.configured 1 2 Sample.first_missing
             "bdi-aircraft" ∅); [lia | reflexivity | reflexivity | |];
      rewrite filenames_as_map; vm_compute; reflexivity.
Defined.

Section DownloaderStops.

Lemma probed_urls_elem url (calls : list Event) :
  HttpHead url ∈ calls → url ∈ probed_urls calls.
Proof.
  intros Hin. unfold probed_urls. apply list_elem_of_omap.
  by exists (HttpHead url).
Qed.

Lemma download_data_calls settings (file_limit : Z) w :
  ∃ (m : nat) (ups : list string),
    probed_urls (calls_since w (download_data settings file_limit w).2)
    = url_of settings <$> take m _generate_readsb_filenames_every_5s
    ∧ uploaded_keys (calls_since w (download_data settings file_limit w).2)
      = String.append S3_PREFIX <$> ups
    ∧ (0 < file_limit → Z.of_nat (length ups) ≤ file_limit)
    ∧ (0 < file_limit → Z.of_nat (length ups) = file_limit →
       ∃ f, last ups = Some f
            ∧ last (take m _generate_readsb_filenames_every_5s) = Some f).
Proof.
  assert (calls_since w w = []) as Hnone
    by (unfold calls_since; by rewrite drop_all).
  unfold download_data. destruct (file_limit <=? 0) eqn:Hcmp.
  { exists O, []. simpl. rewrite Hnone. apply Z.leb_le in Hcmp.
    repeat split; try done; lia. }
  destruct (truthy (s3_bucket settings)) as [bucket|].
  2:{ exists O, []. simpl. rewrite Hnone. repeat split; try done; lia. }
  destruct (download_loop_shape settings file_limit bucket
              _generate_readsb_filenames_every_5s 0 w)
    as (m & ups & calls & Htr & Hp & Hu & _ & Hle & Hlast).
  exists m, ups. unfold mbind, M_bind.
  destruct (download_loop _ _ _ _ _ _) as [[u|e] w']; simpl in *;
    rewrite (calls_since_app _ _ _ Htr); (repeat split; [done | done | |]);
    intros; [apply Hle | apply Hlast | apply Hle | apply Hlast]; lia.
Qed.

End DownloaderStops.

(** C5.  In every run of the downloader, failed or not: once the token at
    position [i] of the day has produced the [n]-th upload call, the one
    that reaches a limit [n > 0], no token at a later position [j] is
    probed. *)
Theorem no_probe_past_limit settings (file_limit : Z) w (i j : nat) fi fj :
  0 < file_limit →
  _generate_readsb_filenames_every_5s !! i = Some fi →
  _generate_readsb_filenames_every_5s !! j = Some fj →
  (i < j)%nat →
  uploaded_keys (calls_since w (download_data settings file_limit w).2)
    !! (Z.to_nat file_limit - 1)%nat = Some (S3_PREFIX +:+ fi) →
  HttpHead (url_of settings fj)
    ∉ calls_since w (download_data settings file_limit w).2.
Proof.
  intros Hn Hi Hj Hij Hnth Hprobe.
  destruct (download_data_calls settings file_limit w)
    as (m & ups & Hp & Hu & Hle & Hlast).
  apply probed_urls_elem in Hprobe. rewrite Hp in Hprobe. rewrite Hu in Hnth.
  apply list_elem_of_fmap in Hprobe as (fj' & Heq & Hprobe).
  apply (inj _) in Heq as <-.
  apply elem_of_take in Hprobe as (j' & Hj' & Hjm).
  pose proof (NoDup_lookup _ _ _ _ filenames_NoDup Hj Hj') as <-.
  rewrite list_lookup_fmap in Hnth.
  destruct (ups !! (Z.to_nat file_limit - 1)%nat) as [fi'|] eqn:Hups;
    [|discriminate Hnth].
  simpl in Hnth. injection Hnth as Hnth. apply (inj _) in Hnth as ->.
  pose proof (lookup_lt_Some _ _ _ Hups) as Hlen.
  destruct (Hlast Hn ltac:(lia)) as (f & Hf & Hf').
  rewrite last_lookup in Hf, Hf'.
  replace (Init.Nat.pred (length ups)) with (Z.to_nat file_limit - 1)%nat in Hf
    by lia.
  rewrite Hups in Hf. injection Hf as <-.
  apply lookup_take_Some in Hf' as [Hf' _].
  pose proof (NoDup_lookup _ _ _ _ filenames_NoDup Hi Hf') as ->.
  pose proof (lookup_lt_Some _ _ _ Hj) as Hjlen.
  rewrite length_take in Hij. lia.
Qed.

Lemma no_probe_past_limit_witness :
  (0 < 1
   ∧ _generate_readsb_filenames_every_5s !! 0%nat = Some "000000Z.json.gz"
   ∧ _generate_readsb_filenames_every_5s !! 1%nat = Some "000005Z.json.gz"
   ∧ (0 < 1)%nat
   ∧ uploaded_keys (calls_since Sample.all_there
                      (download_data Sample.configured 1 Sample.all_there).2)
       !! (Z.to_nat 1 - 1)%nat = Some (S3_PREFIX +:+ "000000Z.json.gz"))
  ∧ HttpHead (url_of Sample.configured "000005Z.json.gz")
      ∉ calls_since Sample.all_there
          (download_data Sample.configured 1 Sample.all_there).2.
Proof.
  assert (_generate_readsb_filenames_every_5s !! 0%nat = Some "000000Z.json.gz"
          ∧ _generate_readsb_filenames_every_5s !! 1%nat = Some "000005Z.json.gz")
    as [H0 H1] by (rewrite filenames_as_map; split; vm_compute; reflexivity).
  assert (uploaded_keys (calls_since Sample.all_there
                      (download_data Sample.configured 1 Sample.all_there).2)
       !! (Z.to_nat 1 - 1)%nat = Some (S3_PREFIX +:+ "000000Z.json.gz")) as Hup.
  { unfold download_data. simpl (1 <=? 0). cbv iota.
    rewrite filenames_as_map. vm_compute. reflexivity. }
  split; [split; [lia|]; split; [exact H0|]; split; [exact H1|]; split;
          [lia | exact Hup]|].
  apply (no_probe_past_limit Sample.configured 1 Sample.all_there 0 1
           "000000Z.json.gz" "000005Z.json.gz");
    [lia | exact H0 | exact H1 | lia | exact Hup].
Defined.

(** C4, as the code has it.  With no bucket configured the localizer raises
    the configuration error at once, and so does the downloader whenever the
    limit is positive; in both cases the world, trace included, is left as
    it was: no network, storage or file-system call precedes the error. *)
Theorem missing_bucket_raises_first settings s1_prepare_data w :
  truthy (s3_bucket settings) = None →
  prepare_data settings s1_prepare_data w = (Raises missing_bucket, w)
  ∧ ∀ file_limit : Z, 0 < file_limit →
      download_data settings file_limit w = (Raises missing_bucket, w).
Proof.
  intros Hb. split.
  - unfold prepare_data. by rewrite Hb.
  - intros file_limit Hn. unfold download_data.
    by rewrite (proj2 (Z.leb_gt _ _) Hn), Hb.
Qed.

Lemma missing_bucket_raises_first_witness :
  (truthy (s3_bucket Sample.unconfigured) = None ∧ 0 < 1)
  ∧ prepare_data Sample.unconfigured Sample.inert_routine Sample.all_there
    = (Raises missing_bucket, Sample.all_there)
  ∧ download_data Sample.unconfigured 1 Sample.all_there
    = (Raises missing_bucket, Sample.all_there).
Proof.
  split; [split; [reflexivity | lia]|].
  destruct (missing_bucket_raises_first Sample.unconfigured Sample.inert_routine
              Sample.all_there eq_refl) as [Hprepare Hdownload].
  split; [exact Hprepare | apply Hdownload; lia].
Defined.

(** C4 as stated fails for the downloader with a limit of zero: no bucket is
    configured, yet it returns normally. *)
Lemma missing_bucket_zero_limit_counterexample :
  truthy (s3_bucket Sample.unconfigured) = None
  ∧ download_data Sample.unconfigured 0 Sample.all_there
    = (Returns "OK uploaded=0", Sample.all_there)
  ∧ ¬ ∃ e, (download_data Sample.unconfigured 0 Sample.all_there).1 = Raises e.
Proof.
  split; [reflexivity|]. split; [reflexivity|].
  intros [e He]. discriminate He.
Qed.

(** ** The local file system *)

Section LocalFiles.

Implicit Types (f : gmap (list string) entry) (p d a : list string).










End LocalFiles.

Section NoFiles.

Implicit Types (f : gmap (list string) entry) (p d a : list string).




End NoFiles.

(** ** Path resolution *)

Section PathWalk.

Implicit Types (f : FS) (loc d a l : list string) (cs : list string) (c : string).










End PathWalk.

(** ** Making directories *)

Section MakeDirs.

Variable cwd : list string.
Variable anch : bool.

Implicit Types (f : FS) (loc d a l p : list string) (cs : list string) (c : string).

Local Abbreviation base := (if anch then [] else cwd).









End MakeDirs.

(** ** Resetting the day directory *)


Section EnsureEmptyDir.

Implicit Types (f : FS) (p d a : list string) (cs : list string) (c : string).




End EnsureEmptyDir.
(** ** Loops and listings *)

Section Loops.

Context {A : Type}.



End Loops.

Section Listing.





End Listing.


(** ** Fetching the listed objects *)

Section FetchObjects.

Variable settings : Settings.
Variable bucket : string.

Implicit Types (f : FS) (p : list string).


Lemma calls_since_refl w : calls_since w w = [].
Proof. unfold calls_since. by rewrite drop_all. Qed.







End FetchObjects.

(** ** The localizer *)

Section Localizer.

Variable settings : Settings.
Variable s1_prepare_data : M string.

Implicit Types (f : FS) (p d a : list string).




End Localizer.


Section SampleDisk.




End SampleDisk.






(** ** Objects with plain names *)

Section PlainNames.

Variable settings : Settings.
Variable bucket : string.

Implicit Types (f : FS) (p d a : list string).




End PlainNames.



